(** * Account-Manager: the credential vault, embedded and verified

    A shallow embedding of [utils/cryptography.py], [database/database.py]
    and [LoginWindow.login] of [gui/login_window.py], followed by the
    properties of the vault: pass-through and round trip of the cipher,
    what save, update and delete do to the table and to the key files,
    and the two states of the master password.

    Python values that travel through the program are [None], [str] and
    [bytes]; they are kept apart because the code relies on the difference
    (a column holds either pass-through text or a binary blob).  Exceptions
    are values of [exn]; a Python function that may raise returns a
    [result].  Code that touches the database file, the key directory, the
    random source or standard output runs in the monad [prog], a state
    monad over [World] whose state survives an exception, as file-system
    effects do in Python.

    The third-party primitives (SHA-256, AES-GCM, the UTF-8 codec) are the
    fields of the class [PyLib]; what is assumed of them is the class
    [PyLibLaws]. *)

From Stdlib Require Import ZArith NArith List Ascii String Lia Bool.
From Stdlib.Strings Require Import Byte.
From stdpp Require Import base tactics option list gmap strings.

Open Scope Z_scope.

(** ** Python values *)

Module Py.

(** [bytes]: a sequence of octets. *)
Definition bytes := list byte.

(** [str]: a sequence of Unicode code points (text; every string of the
    model has a UTF-8 encoding). *)
Definition pystr := list N.

(** A string literal of the source. *)
Definition lit (s : string) : pystr :=
  map N_of_ascii (list_ascii_of_string s).

Inductive pyval : Type :=
| PNone
| PStr (s : pystr)
| PBytes (b : bytes).

Inductive exn : Type :=
| ValueError
| TypeError
| AttributeError
| FileNotFoundError
| UnicodeDecodeError
| PermissionError
| IntegrityError
| InvalidTag.

Inductive result (A : Type) : Type :=
| Ok (a : A)
| Raise (e : exn).
Arguments Ok {A} a.
Arguments Raise {A} e.

#[global] Instance byte_eq_dec : EqDecision byte := Byte.byte_eq_dec.
#[global] Instance pyval_eq_dec : EqDecision pyval.
Proof. solve_decision. Defined.
#[global] Instance exn_eq_dec : EqDecision exn.
Proof. solve_decision. Defined.

#[global] Instance result_ret : MRet result := fun _ a => Ok a.
#[global] Instance result_bind : MBind result := fun _ _ f m =>
  match m with
  | Ok a => f a
  | Raise e => Raise e
  end.

(** *** Whitespace and [strip] *)

(** The code points [str.strip()] removes (those [str.isspace] accepts). *)
Definition str_isspace (c : N) : bool :=
  ((9 <=? c) && (c <=? 13) || (28 <=? c) && (c <=? 32)
   || (c =? 133) || (c =? 160) || (c =? 5760)
   || (8192 <=? c) && (c <=? 8202)
   || (c =? 8232) || (c =? 8233) || (c =? 8239) || (c =? 8287)
   || (c =? 12288))%N.

(** The octets [bytes.strip()] removes: space, \t, \n, \r, \x0b, \f. *)
Definition bytes_isspace (b : byte) : bool :=
  let c := Byte.to_N b in
  ((9 <=? c) && (c <=? 13) || (c =? 32))%N.

Section Strip.
Context {A : Type} (sp : A -> bool).

Fixpoint lstrip (l : list A) : list A :=
  match l with
  | [] => []
  | c :: l' => if sp c then lstrip l' else l
  end.

Definition rstrip (l : list A) : list A := rev (lstrip (rev l)).

Definition strip (l : list A) : list A := rstrip (lstrip l).
End Strip.

(** Python truth value of a sequence: empty is false. *)
Definition truthy {A : Type} (l : list A) : bool :=
  match l with [] => false | _ => true end.

End Py.
Export Py.

(** ** The third-party primitives *)

Class PyLib : Type := {
  (** [hashlib.sha256(data).hexdigest()] *)
  sha256_hexdigest : bytes -> pystr;
  (** [AESGCM(key).encrypt(nonce, data, None)] *)
  aesgcm_encrypt : bytes -> bytes -> bytes -> result bytes;
  (** [AESGCM(key).decrypt(nonce, data, None)]; a tag that does not verify
      is [Raise InvalidTag] *)
  aesgcm_decrypt : bytes -> bytes -> bytes -> result bytes;
  (** [s.encode('utf-8')] and [b.decode('utf-8')] *)
  utf8_encode : pystr -> bytes;
  utf8_decode : bytes -> result pystr;
  (** [os.getcwd()] when the module [utils.cryptography] is imported *)
  os_getcwd : pystr
}.

Class PyLibLaws (L : PyLib) : Prop := {
  (** AES-GCM accepts a 256-bit key with a 96-bit nonce. *)
  aesgcm_encrypt_total : forall k n m,
    length k = 32%nat -> length n = 12%nat ->
    exists c, aesgcm_encrypt k n m = Ok c;
  (** Decryption under the same key and nonce inverts encryption. *)
  aesgcm_decrypt_encrypt : forall k n m c,
    aesgcm_encrypt k n m = Ok c -> aesgcm_decrypt k n c = Ok m;
  (** UTF-8 decoding inverts encoding. *)
  utf8_decode_encode : forall s, utf8_decode (utf8_encode s) = Ok s
}.

(** ** The world the program runs in *)

(** A row of the table [accounts] (class [Account]).  [id] is the integer
    primary key; the other columns hold whatever Python value was bound:
    [None] (SQL NULL), a [str] (TEXT) or a [bytes] (BLOB). *)
Record Account : Type := mkAccount {
  id : Z;
  key_file : pyval;
  website : pyval;
  notes : pyval;
  email : pyval;
  username : pyval;
  password : pyval
}.

#[global] Instance Account_eq_dec : EqDecision Account.
Proof. solve_decision. Defined.

(** The five columns [update_account] can write. *)
Inductive column : Type := Website | Notes | Email | Username | Password.

#[global] Instance column_eq_dec : EqDecision column.
Proof. solve_decision. Defined.

Definition get_column (c : column) (a : Account) : pyval :=
  match c with
  | Website => website a
  | Notes => notes a
  | Email => email a
  | Username => username a
  | Password => password a
  end.

Definition set_column (c : column) (v : pyval) (a : Account) : Account :=
  match c with
  | Website => mkAccount (id a) (key_file a) v (notes a) (email a) (username a) (password a)
  | Notes => mkAccount (id a) (key_file a) (website a) v (email a) (username a) (password a)
  | Email => mkAccount (id a) (key_file a) (website a) (notes a) v (username a) (password a)
  | Username => mkAccount (id a) (key_file a) (website a) (notes a) (email a) v (password a)
  | Password => mkAccount (id a) (key_file a) (website a) (notes a) (email a) (username a) v
  end.

(** What the program printed, and the effects that reached the disk, in
    the order they happened. *)
Inductive event : Type :=
| Committed                                  (* session.commit() went through *)
| FileWritten (path : pystr)
| FileRemoved (path : pystr)
| PrintedSaveError (err : exn)               (* "Error saving account to database: ..." *)
| PrintedDeleteError (path : pystr) (err : exn). (* "Error deleting file ...: ..." *)

Record World : Type := mkWorld {
  (** the table [accounts] of Accounts.db, in rowid order *)
  accounts : list Account;
  (** the files on disk, by path *)
  files : gmap pystr bytes;
  (** the paths [os.remove] refuses (an I/O failure of the environment) *)
  undeletable : pystr -> bool;
  (** the operating system's random source and how much of it was used *)
  entropy : nat -> byte;
  drawn : nat;
  (** history, oldest first *)
  trace : list event
}.

(** ** The monad of effectful code *)

Definition prog (A : Type) : Type := World -> result A * World.

#[global] Instance prog_ret : MRet prog := fun _ a w => (Ok a, w).
#[global] Instance prog_bind : MBind prog := fun _ _ f m w =>
  match m w with
  | (Ok a, w') => f a w'
  | (Raise e, w') => (Raise e, w')
  end.

Definition raise {A : Type} (e : exn) : prog A := fun w => (Raise e, w).

(** A pure computation that may raise. *)
Definition lift {A : Type} (r : result A) : prog A := fun w => (r, w).

(** [try: body except Exception as err: handler(err)] *)
Definition try_except {A : Type} (body : prog A) (handler : exn -> prog A)
  : prog A := fun w =>
  match body w with
  | (Ok a, w') => (Ok a, w')
  | (Raise e, w') => handler e w'
  end.

Definition emit (ev : event) : prog unit := fun w =>
  (Ok tt, mkWorld (accounts w) (files w) (undeletable w) (entropy w) (drawn w)
            (trace w ++ [ev])).

(** [secrets.token_bytes(n)] *)
Definition token_bytes (n : nat) : prog bytes := fun w =>
  (Ok (map (entropy w) (seq (drawn w) n)),
   mkWorld (accounts w) (files w) (undeletable w) (entropy w) (drawn w + n)%nat
     (trace w)).

(** *** Files *)

(** [os.path.exists(path)] *)
Definition os_path_exists (path : pystr) : prog bool := fun w =>
  (Ok (bool_decide (is_Some (files w !! path))), w).

(** [os.remove(path)] *)
Definition os_remove (path : pystr) : prog unit := fun w =>
  match files w !! path with
  | None => (Raise FileNotFoundError, w)
  | Some _ =>
      if undeletable w path then (Raise PermissionError, w)
      else (Ok tt, mkWorld (accounts w) (delete path (files w)) (undeletable w)
                     (entropy w) (drawn w) (trace w ++ [FileRemoved path]))
  end.

(** [with open(path, 'wb') as f: f.write(data)] *)
Definition write_file (path : pystr) (data : bytes) : prog unit := fun w =>
  (Ok tt, mkWorld (accounts w) (<[path := data]> (files w)) (undeletable w)
            (entropy w) (drawn w) (trace w ++ [FileWritten path])).

(** [with open(path, 'rb') as f: return f.read()] *)
Definition read_file (path : pystr) : prog bytes := fun w =>
  match files w !! path with
  | Some data => (Ok data, w)
  | None => (Raise FileNotFoundError, w)
  end.

(** *** The SQLAlchemy session

    A session opened by [with self.session() as session] keeps its changes
    to itself until [session.commit()]; leaving the block without a commit
    (an exception, or just no commit) closes the session and drops them.
    So the table changes at a commit and nowhere else. *)

(** [session.query(Account).filter_by(...).first()] *)
Definition query_first (p : Account -> bool) : prog (option Account) :=
  fun w => (Ok (List.find p (accounts w)), w).

(** [session.query(Account).all()] *)
Definition query_all : prog (list Account) := fun w => (Ok (accounts w), w).

(** The largest rowid in use. *)
Definition max_rowid (rows : list Account) : option Z :=
  match rows with
  | [] => None
  | a :: rows' => Some (foldr (fun b m => Z.max (id b) m) (id a) rows')
  end.

(** The id SQLite gives a row inserted with [id=None]: one more than the
    largest in use, 1 in an empty table. *)
Definition next_rowid (rows : list Account) : Z :=
  match max_rowid rows with
  | None => 1
  | Some m => m + 1
  end.

(** The constraints of the table on a new row: [key_file] is unique among
    the rows where it is not NULL, [password] is NOT NULL. *)
Definition insert_allowed (rows : list Account) (a : Account) : bool :=
  negb (bool_decide (password a = PNone))
  && (bool_decide (key_file a = PNone)
      || forallb (fun b => negb (bool_decide (key_file b = key_file a))) rows).

(** What a session holds when [commit] is called. *)
Inductive pending : Type :=
| SessionAdd (key_file website notes email username password : pyval)
    (* session.add(Account(id=None, key_file=..., ..., password=...)) *)
| SessionAssign (a : Account) (c : column) (v : pyval)  (* row.<column> = v *)
| SessionDelete (a : Account).             (* session.delete(row) *)

Definition set_accounts (rows : list Account) : prog unit := fun w =>
  (Ok tt, mkWorld rows (files w) (undeletable w) (entropy w) (drawn w)
            (trace w ++ [Committed])).

(** [session.commit()]: INSERT, UPDATE ... WHERE id = ?, DELETE ... WHERE
    id = ?; a violated constraint is an IntegrityError and nothing is
    stored.  (The listener [backup_database] copies Accounts.db into
    backup/ on a commit; it reads the table and touches neither it nor
    the key files, and is left out.) *)
Definition session_commit (p : pending) : prog unit := fun w =>
  let rows := accounts w in
  match p with
  | SessionAdd k ws n e u p =>
      let a := mkAccount (next_rowid rows) k ws n e u p in
      if insert_allowed rows a then set_accounts (rows ++ [a]) w
      else (Raise IntegrityError, w)
  | SessionAssign a c v =>
      if bool_decide (c = Password) && bool_decide (v = PNone)
      then (Raise IntegrityError, w)
      else set_accounts
             (map (fun b => if bool_decide (id b = id a) then set_column c v b
                            else b) rows) w
  | SessionDelete a =>
      set_accounts (List.filter (fun b => negb (bool_decide (id b = id a))) rows) w
  end.

(** ** utils/cryptography.py *)

Section Cryptography.
Context {L : PyLib}.

(** [KEYS_DIRECTORY] and [KEY_FILE_EXTENSION]. *)
Definition os_path_join (a b : pystr) : pystr :=
  match b with
  | 47%N :: _ => b
  | _ => match last a with
         | None | Some 47%N => a ++ b
         | Some _ => a ++ lit "/" ++ b
         end
  end.

Definition KEYS_DIRECTORY : pystr := os_path_join os_getcwd (lit "keys").
Definition KEY_FILE_EXTENSION : pystr := lit ".bin".

(** [hash_str]: a [str] is encoded first; [sha256(None)] is a TypeError. *)
Definition hash_str (key : pyval) : result pystr :=
  match key with
  | PStr s => Ok (sha256_hexdigest (utf8_encode s))
  | PBytes b => Ok (sha256_hexdigest b)
  | PNone => Raise TypeError
  end.

(** [generate_key] *)
Definition generate_key : prog bytes := token_bytes 32.

(** [is_empty_or_whitespace]: [strng is None or not strng.strip()]. *)
Definition is_empty_or_whitespace (strng : pyval) : bool :=
  match strng with
  | PNone => true
  | PStr s => negb (truthy (strip str_isspace s))
  | PBytes b => negb (truthy (strip bytes_isspace b))
  end.

(** The constructor [AESGCM(key)]: 128, 192 or 256 bits, else ValueError. *)
Definition AESGCM (key : bytes) : result bytes :=
  if bool_decide (length key = 16%nat) || bool_decide (length key = 24%nat)
     || bool_decide (length key = 32%nat)
  then Ok key else Raise ValueError.

(** [encrypt] *)
Definition encrypt (key : bytes) (plaintext : pyval) : prog pyval :=
  if is_empty_or_whitespace plaintext then mret plaintext
  else
    aesgcm ← lift (AESGCM key);
    nonce ← token_bytes 12;
    match plaintext with
    | PStr s =>
        ciphertext ← lift (aesgcm_encrypt aesgcm nonce (utf8_encode s));
        mret (PBytes (nonce ++ ciphertext))
    | _ => raise AttributeError
    end.

(** [decrypt] *)
Definition decrypt (key : bytes) (ciphertext : pyval) : result pyval :=
  if is_empty_or_whitespace ciphertext then Ok ciphertext
  else
    aesgcm ← AESGCM key;
    match ciphertext with
    | PBytes b =>
        let nonce := take 12 b in
        let ciphertext := drop 12 b in
        plaintext ← aesgcm_decrypt aesgcm nonce ciphertext;
        s ← utf8_decode plaintext;
        Ok (PStr s)
    | _ => Raise TypeError
    end.

(** [build_key_file_path]: [file_name + KEY_FILE_EXTENSION] is a
    TypeError unless [file_name] is a [str]. *)
Definition build_key_file_path (file_name : pyval) : result pystr :=
  match file_name with
  | PStr s => Ok (os_path_join KEYS_DIRECTORY (s ++ KEY_FILE_EXTENSION))
  | _ => Raise TypeError
  end.

(** [save_key_to_file] *)
Definition save_key_to_file (file_name : pyval) (key : bytes) : prog unit :=
  path ← lift (build_key_file_path file_name);
  write_file path key.

(** [read_key_from_file] *)
Definition read_key_from_file (file_name : pyval) : prog bytes :=
  path ← lift (build_key_file_path file_name);
  read_file path.

(** [delete_key_file]: the path is built before the [try]. *)
Definition delete_key_file (file_name : pyval) : prog bool :=
  file_path ← lift (build_key_file_path file_name);
  try_except
    (found ← os_path_exists file_path;
     if found : bool then os_remove file_path;; mret true
     else mret false)
    (fun err => emit (PrintedDeleteError file_path err);; mret false).

End Cryptography.

(** ** database/database.py: class AccountDatabase *)

Section AccountDatabase.
Context {L : PyLib}.

(** [fetch_master_password] *)
Definition fetch_master_password : prog pyval :=
  account ← query_first
              (fun a => bool_decide (username a = PStr (lit "master")));
  match account with
  | Some account => mret (password account)
  | None => mret PNone
  end.

(** [set_master_password]: [hashed_password] is a [str], so
    [str(hashed_password)] is that string. *)
Definition set_master_password (hashed_password : pystr) : prog unit :=
  session_commit
    (SessionAdd PNone PNone PNone PNone
       (PStr (lit "master")) (PStr hashed_password)).

(** [is_key_exists] *)
Definition is_key_exists (key : pyval) : prog (option Account) :=
  query_first (fun a => bool_decide (key_file a = key)).

(** [load_accounts] *)
Definition load_accounts : prog (list Account) := query_all.

(** [save_account] *)
Definition save_account (website notes email username password : pyval)
  : prog unit :=
  try_except
    (key ← generate_key;
     digest ← lift (hash_str (PBytes key));
     let hashed_key := PStr (take 15 digest) in
     website' ← encrypt key website;
     notes' ← encrypt key notes;
     email' ← encrypt key email;
     username' ← encrypt key username;
     password' ← encrypt key password;
     session_commit
       (SessionAdd hashed_key website' notes' email' username' password');;
     save_key_to_file hashed_key key)
    (fun err => emit (PrintedSaveError err);; raise err).

(** The column a name of the table header stands for. *)
Definition column_named (column_updated : pystr) : option column :=
  if bool_decide (column_updated = lit "Website") then Some Website
  else if bool_decide (column_updated = lit "Notes") then Some Notes
  else if bool_decide (column_updated = lit "Email") then Some Email
  else if bool_decide (column_updated = lit "Username") then Some Username
  else if bool_decide (column_updated = lit "Password") then Some Password
  else None.

(** [update_account] *)
Definition update_account (uid : Z) (column_updated : pystr)
    (new_value : pyval) : prog unit :=
  row ← query_first (fun a => bool_decide (id a = uid));
  match row with
  | None => raise ValueError
  | Some row =>
      new_value ←
        (if negb (is_empty_or_whitespace new_value) then
           key ← read_key_from_file (key_file row);
           encrypt key new_value
         else mret new_value);
      match column_named column_updated with
      | Some c => session_commit (SessionAssign row c new_value)
      | None => raise ValueError
      end
  end.

(** [delete_account] *)
Definition delete_account (uid : Z) : prog unit :=
  account_to_delete ← query_first (fun a => bool_decide (id a = uid));
  match account_to_delete with
  | Some account_to_delete =>
      delete_key_file (key_file account_to_delete);;
      session_commit (SessionDelete account_to_delete)
  | None => mret tt
  end.

End AccountDatabase.

(** ** gui/login_window.py: LoginWindow.login *)

(** What the user sees after pressing Login. *)
Inductive login_outcome : Type :=
| MasterPasswordSet        (* 'Master password set successfully.', main window opens *)
| LoggedIn                 (* main window opens *)
| IncorrectMasterPassword  (* warning 'Incorrect master password.' *)
| LoginError (err : exn).  (* critical message box with the exception *)

Section Login.
Context {L : PyLib}.

(** Python [==] between a [str] and a column value. *)
Definition str_eq (s : pystr) (v : pyval) : bool := bool_decide (PStr s = v).

(** [login]: the body of the [try], and the [except] that turns any
    exception into a message box. *)
Definition login (password : pystr) : World -> login_outcome * World :=
  fun w =>
  let body : prog login_outcome :=
    master_password ← fetch_master_password;
    match master_password with
    | PNone =>
        hashed ← lift (hash_str (PBytes (utf8_encode password)));
        set_master_password hashed;;
        mret MasterPasswordSet
    | _ =>
        hashed ← lift (hash_str (PBytes (utf8_encode password)));
        if str_eq hashed master_password then mret LoggedIn
        else mret IncorrectMasterPassword
    end in
  match body w with
  | (Ok outcome, w') => (outcome, w')
  | (Raise err, w') => (LoginError err, w')
  end.

End Login.

(** ** Vocabulary of the statements *)

(** Two worlds that differ at most in how much entropy was consumed. *)
Definition same_store (w w' : World) : Prop :=
  accounts w' = accounts w /\ files w' = files w
  /\ undeletable w' = undeletable w /\ entropy w' = entropy w
  /\ trace w' = trace w.

(** The bytes the next [token_bytes n] returns. *)
Definition next_bytes (n : nat) (w : World) : bytes :=
  map (entropy w) (seq (drawn w) n).

Section Vocabulary.
Context {L : PyLib}.

(** The blob [encrypt] builds for the text [s] from [key] and [nonce] is
    not made of whitespace octets only, so [decrypt] does not take it
    for pass-through text. *)
Definition blob_is_binary (key nonce : bytes) (s : pystr) : Prop :=
  forall c, aesgcm_encrypt key nonce (utf8_encode s) = Ok c ->
            is_empty_or_whitespace (PBytes (nonce ++ c)) = false.

(** The two steps of reading a stored field back: load the key the row
    names, then [decrypt]. *)
Definition read_back (a : Account) (c : column) : prog pyval :=
  key ← read_key_from_file (key_file a);
  lift (decrypt key (get_column c a)).

(** The value [update_account] is about to store: [new_value] itself
    when it is blank, else its encryption under the key of the row. *)
Definition value_to_store (row : Account) (new_value : pyval) : prog pyval :=
  if negb (is_empty_or_whitespace new_value) then
    key ← read_key_from_file (key_file row);
    encrypt key new_value
  else mret new_value.

(** [v] is what [encrypt] stores for the text [s] under [key]: [s] itself
    when it is blank, else a 12-byte nonce followed by the AES-GCM
    output for [s] under [key] and that nonce. *)
Definition encryption_of (key : bytes) (s : pystr) (v : pyval) : Prop :=
  if is_empty_or_whitespace (PStr s) then v = PStr s
  else exists nonce c,
      length nonce = 12%nat
      /\ aesgcm_encrypt key nonce (utf8_encode s) = Ok c
      /\ v = PBytes (nonce ++ c).

End Vocabulary.


(** The names of the table header that [update_account] accepts. *)
Definition editable_columns : list pystr :=
  [lit "Website"; lit "Notes"; lit "Email"; lit "Username"; lit "Password"].

(** ** A small instance of the primitives, to run the embedding on *)

Module Sample.

(** A 16-byte tag made from key and nonce. *)
Definition tag (k n : bytes) : bytes := take 16 (k ++ n ++ repeat x00 16).

Definition seal (k n m : bytes) : result bytes := Ok (m ++ tag k n).

Definition unseal (k n c : bytes) : result bytes :=
  let l := (length c - 16)%nat in
  if bool_decide (drop l c = tag k n) then Ok (take l c) else Raise InvalidTag.

(** Code point [c] as [c] octets 01 closed by 00. *)
Fixpoint unary (c : nat) : bytes :=
  match c with
  | O => [x00]
  | S c' => x01 :: unary c'
  end.

Definition encode (s : pystr) : bytes :=
  flat_map (fun c => unary (N.to_nat c)) s.

Fixpoint decode_from (acc : nat) (b : bytes) : result pystr :=
  match b with
  | [] => if (acc =? 0)%nat then Ok [] else Raise UnicodeDecodeError
  | x00 :: b' => s ← decode_from 0 b'; Ok (N.of_nat acc :: s)
  | x01 :: b' => decode_from (S acc) b'
  | _ => Raise UnicodeDecodeError
  end.

Definition digest (b : bytes) : pystr := map Byte.to_N b.

Definition lib : PyLib := {|
  sha256_hexdigest := digest;
  aesgcm_encrypt := seal;
  aesgcm_decrypt := unseal;
  utf8_encode := encode;
  utf8_decode := decode_from 0;
  os_getcwd := lit "/home/user/Account-Manager"
|}.

(** Entropy that counts 0, 1, 2, ... *)
Definition counting (i : nat) : byte :=
  default x00 (Byte.of_N (N.of_nat (i mod 256))).

(** A fresh installation: empty table, empty key directory. *)
Definition fresh : World := mkWorld [] ∅ (fun _ => false) counting 0 [].

Definition key1 : bytes := repeat x01 32.

End Sample.

Module Scenario.
Import Sample.

(** The same installation on a disk whose files cannot be removed. *)
Definition locked : World := mkWorld [] ∅ (fun _ => true) counting 0 [].

(** After the first login with the master password "secret". *)
Definition with_master : World := snd (login (L := lib) (lit "secret") fresh).

(** After saving one account (scenario A of the specification). *)
Definition saved (w : World) : World :=
  snd (save_account (L := lib) (PStr (lit "site.com")) (PStr (lit "n"))
         (PStr (lit "e@x.com")) (PStr (lit "user")) (PStr (lit "pass123")) w).

End Scenario.

(** The test [filter_by(username='master')] of [fetch_master_password]. *)
Definition is_master (a : Account) : bool :=
  bool_decide (username a = PStr (lit "master")).

(** ** Running programs: equations of the monad *)

Lemma bind_ok {A B : Type} (m : prog A) (f : A -> prog B) w a w' :
  m w = (Ok a, w') -> (m ≫= f) w = f a w'.
Proof. intros H. unfold mbind, prog_bind. by rewrite H. Qed.

Lemma bind_raise {A B : Type} (m : prog A) (f : A -> prog B) w e w' :
  m w = (Raise e, w') -> (m ≫= f) w = (Raise e, w').
Proof. intros H. unfold mbind, prog_bind. by rewrite H. Qed.

Lemma lift_run {A : Type} (r : result A) w : lift r w = (r, w).
Proof. reflexivity. Qed.

Lemma same_store_refl w : same_store w w.
Proof. by repeat split. Qed.

Lemma same_store_trans w1 w2 w3 :
  same_store w1 w2 -> same_store w2 w3 -> same_store w1 w3.
Proof.
  intros (a1 & f1 & u1 & e1 & t1) (a2 & f2 & u2 & e2 & t2).
  repeat split; congruence.
Qed.

Lemma next_bytes_length n w : length (next_bytes n w) = n.
Proof. unfold next_bytes. by rewrite length_map, length_seq. Qed.

Lemma token_bytes_run n w :
  exists w', token_bytes n w = (Ok (next_bytes n w), w')
             /\ same_store w w' /\ drawn w' = (drawn w + n)%nat.
Proof. eexists. split; [reflexivity|]. by repeat split. Qed.

(** ** Whitespace *)

Section StripFacts.
Context {A : Type} (sp : A -> bool).

Lemma lstrip_blank (l : list A) : forallb sp l = true -> lstrip sp l = [].
Proof.
  induction l as [|c l IH]; simpl; [done|].
  intros [Hc Hl]%andb_true_iff. rewrite Hc. auto.
Qed.

Lemma lstrip_nil_inv (l : list A) : lstrip sp l = [] -> forallb sp l = true.
Proof.
  induction l as [|c l IH]; simpl; [done|].
  destruct (sp c); [auto | discriminate].
Qed.

Lemma lstrip_suffix (l : list A) : exists pre, l = pre ++ lstrip sp l /\ forallb sp pre = true.
Proof.
  induction l as [|c l (pre & Hl & Hpre)]; simpl.
  - by exists [].
  - destruct (sp c) eqn:Hc.
    + exists (c :: pre). simpl. rewrite Hc, Hpre. split; [by f_equal | done].
    + by exists [].
Qed.

Lemma forallb_reverse (l : list A) : forallb sp (rev l) = forallb sp l.
Proof.
  induction l as [|c l IH]; simpl; [done|].
  rewrite forallb_app, IH. simpl. rewrite andb_true_r. apply andb_comm.
Qed.

(** [not s.strip()] holds exactly of the sequences made of whitespace. *)
Lemma strip_blank_iff (l : list A) :
  truthy (strip sp l) = false <-> forallb sp l = true.
Proof.
  unfold strip, rstrip. split.
  - intros H.
    assert (rev (lstrip sp (rev (lstrip sp l))) = []) as Hr
      by (destruct (rev _); [done | discriminate]).
    apply (f_equal (@rev A)) in Hr. rewrite rev_involutive in Hr. simpl in Hr.
    apply lstrip_nil_inv in Hr. rewrite forallb_reverse in Hr.
    destruct (lstrip_suffix l) as (pre & Hl & Hpre).
    rewrite Hl, forallb_app, Hpre, Hr. done.
  - intros H. by rewrite (lstrip_blank l H).
Qed.
End StripFacts.

Section CipherFacts.
Context {L : PyLib}.

Lemma blank_str_iff (s : pystr) :
  is_empty_or_whitespace (PStr s) = true <-> forallb str_isspace s = true.
Proof.
  simpl. rewrite negb_true_iff. apply strip_blank_iff.
Qed.

Lemma blank_bytes_iff (b : bytes) :
  is_empty_or_whitespace (PBytes b) = true <-> forallb bytes_isspace b = true.
Proof.
  simpl. rewrite negb_true_iff. apply strip_blank_iff.
Qed.

Lemma AESGCM_256 (key : bytes) : length key = 32%nat -> AESGCM key = Ok key.
Proof. intros H. unfold AESGCM. by rewrite H. Qed.

(** Pass-through: a value that is empty or whitespace goes through
    [encrypt] untouched, and no nonce is drawn. *)
Lemma encrypt_blank key v w :
  is_empty_or_whitespace v = true -> encrypt key v w = (Ok v, w).
Proof. intros H. unfold encrypt. by rewrite H. Qed.

Lemma decrypt_blank key v :
  is_empty_or_whitespace v = true -> decrypt key v = Ok v.
Proof. intros H. unfold decrypt. by rewrite H. Qed.

(** [encrypt] on text that is not blank: the blob is the nonce just
    drawn followed by the AES-GCM output. *)
Lemma encrypt_text key s w :
  length key = 32%nat ->
  is_empty_or_whitespace (PStr s) = false ->
  exists w',
    encrypt key (PStr s) w
    = (match aesgcm_encrypt key (next_bytes 12 w) (utf8_encode s) with
       | Ok c => Ok (PBytes (next_bytes 12 w ++ c))
       | Raise e => Raise e
       end, w')
    /\ same_store w w' /\ drawn w' = (drawn w + 12)%nat.
Proof.
  intros Hk Hs. unfold encrypt. rewrite Hs, (AESGCM_256 _ Hk).
  destruct (token_bytes_run 12 w) as (w' & Hn & Hst & Hd).
  exists w'. split; [|done].
  unfold mbind at 1, prog_bind. rewrite lift_run.
  unfold mbind at 1, prog_bind. rewrite Hn.
  unfold mbind, prog_bind. rewrite lift_run.
  by destruct (aesgcm_encrypt _ _ _).
Qed.

(** [decrypt] on a blob that is not blank splits off the 12-byte nonce
    and returns what AES-GCM returns, decoded. *)
Lemma decrypt_blob key nonce c :
  length key = 32%nat -> length nonce = 12%nat ->
  is_empty_or_whitespace (PBytes (nonce ++ c)) = false ->
  decrypt key (PBytes (nonce ++ c))
  = (plaintext ← aesgcm_decrypt key nonce c;
     s ← utf8_decode plaintext; Ok (PStr s)).
Proof.
  intros Hk Hn Hb. unfold decrypt. rewrite Hb, (AESGCM_256 _ Hk). simpl.
  rewrite <- Hn at 1. rewrite take_app_length.
  rewrite <- Hn at 1. by rewrite drop_app_length.
Qed.

End CipherFacts.

(** ** The small instance satisfies what is assumed of the primitives *)

Lemma sample_unseal_seal k n m c : Sample.seal k n m = Ok c -> Sample.unseal k n c = Ok m.
Proof.
  unfold Sample.seal, Sample.unseal. intros [= <-].
  assert (length (Sample.tag k n) = 16%nat) as Ht.
  { unfold Sample.tag. rewrite length_take, !length_app, repeat_length. lia. }
  rewrite length_app, Ht.
  replace (length m + 16 - 16)%nat with (length m) by lia.
  rewrite drop_app_length, take_app_length.
  by rewrite bool_decide_eq_true_2.
Qed.

Lemma sample_decode_unary acc c rest :
  Sample.decode_from acc (Sample.unary c ++ rest)
  = (s ← Sample.decode_from 0 rest; Ok (N.of_nat (acc + c) :: s)).
Proof.
  revert acc. induction c as [|c IH]; intros acc; simpl.
  - by rewrite Nat.add_0_r.
  - rewrite IH. by replace (S acc + c)%nat with (acc + S c)%nat by lia.
Qed.

Lemma sample_decode_encode s : Sample.decode_from 0 (Sample.encode s) = Ok s.
Proof.
  induction s as [|c s IH]; [done|].
  unfold Sample.encode. simpl. fold (Sample.encode s).
  rewrite sample_decode_unary, IH. simpl. by rewrite N2Nat.id.
Qed.

#[global] Instance sample_laws : PyLibLaws Sample.lib.
Proof.
  split; simpl.
  - intros k n m _ _. by eexists.
  - apply sample_unseal_seal.
  - apply sample_decode_encode.
Qed.

(** ** The cipher: pass-through, round trip, nonces, wrong keys *)

Section CipherTheorems.
Context {L : PyLib} {laws : PyLibLaws L}.

(** C7.  For every key [k] (of 32 bytes or not) and every string [p] that
    is empty or made of whitespace only, [encrypt(k, p)] returns [p]
    itself without drawing a nonce, and so does [decrypt(k, p)]: such a
    value never reaches AES-GCM. *)
Theorem passthrough_fixed_point (k : bytes) (p : pystr) (w : World) :
  is_empty_or_whitespace (PStr p) = true ->
  encrypt k (PStr p) w = (Ok (PStr p), w)
  /\ decrypt k (PStr p) = Ok (PStr p).
Proof.
  intros Hp. split; [by apply encrypt_blank | by apply decrypt_blank].
Qed.

(** What [encrypt] returns for text that is not blank, and that
    [decrypt] inverts it. *)
Lemma encrypt_then_decrypt (k : bytes) (p : pystr) (w : World) :
  length k = 32%nat ->
  is_empty_or_whitespace (PStr p) = false ->
  blob_is_binary k (next_bytes 12 w) p ->
  exists c w',
    aesgcm_encrypt k (next_bytes 12 w) (utf8_encode p) = Ok c
    /\ encrypt k (PStr p) w = (Ok (PBytes (next_bytes 12 w ++ c)), w')
    /\ same_store w w' /\ drawn w' = (drawn w + 12)%nat
    /\ decrypt k (PBytes (next_bytes 12 w ++ c)) = Ok (PStr p).
Proof.
  intros Hk Hp Hbin.
  destruct (aesgcm_encrypt_total k (next_bytes 12 w) (utf8_encode p) Hk
              (next_bytes_length 12 w)) as [c Hc].
  destruct (encrypt_text k p w Hk Hp) as (w' & Hrun & Hst & Hd).
  rewrite Hc in Hrun. exists c, w'. repeat split; try done; try apply Hst.
  rewrite (decrypt_blob k _ c Hk (next_bytes_length 12 w) (Hbin c Hc)).
  rewrite (aesgcm_decrypt_encrypt _ _ _ _ Hc). simpl.
  by rewrite utf8_decode_encode.
Qed.


End CipherTheorems.

Lemma passthrough_fixed_point_witness :
  is_empty_or_whitespace (PStr (lit "  ")) = true
  /\ encrypt (L := Sample.lib) Sample.key1 (PStr (lit "  ")) Sample.fresh
     = (Ok (PStr (lit "  ")), Sample.fresh)
  /\ decrypt (L := Sample.lib) Sample.key1 (PStr (lit "  ")) = Ok (PStr (lit "  ")).
Proof.
  split; [reflexivity|].
  apply (passthrough_fixed_point (L := Sample.lib)). reflexivity.
Defined.


Section NonceTheorems.
Context {L : PyLib} {laws : PyLibLaws L}.




End NonceTheorems.




(** ** The table: deleting *)

Section DeleteTheorems.
Context {L : PyLib}.

Lemma find_by_id_some (rows : list Account) (uid : Z) (a : Account) :
  List.find (fun b => bool_decide (id b = uid)) rows = Some a ->
  id a = uid /\ In a rows.
Proof.
  intros H. apply find_some in H as [Hin Hid].
  by apply bool_decide_eq_true in Hid.
Qed.

Lemma filter_other_ids (rows : list Account) (uid : Z) :
  Forall (fun b => id b <> uid)
    (List.filter (fun b => negb (bool_decide (id b = uid))) rows).
Proof.
  apply List.Forall_forall. intros b [_ Hb]%filter_In.
  apply negb_true_iff in Hb. by apply bool_decide_eq_false in Hb.
Qed.

(** C10.  [delete_account] called with the id of a row whose [key_file]
    is NULL, as is the case of the sentinel master row, raises a
    TypeError while the path of the key file is built, before the
    commit: nothing is deleted, the world is what it was. *)
Theorem delete_master_row_raises (uid : Z) (a : Account) (w : World) :
  List.find (fun b => bool_decide (id b = uid)) (accounts w) = Some a ->
  username a = PStr (lit "master") ->
  key_file a = PNone ->
  delete_account uid w = (Raise TypeError, w).
Proof.
  intros Hfind _ Hkey.
  unfold delete_account, query_first, mbind, prog_bind. rewrite Hfind.
  unfold delete_key_file, mbind, prog_bind. by rewrite Hkey.
Qed.

(** What [delete_key_file] does to a file name that is a string. *)
Lemma delete_key_file_run (kid : pystr) (w : World) :
  let path := os_path_join KEYS_DIRECTORY (kid ++ KEY_FILE_EXTENSION) in
  exists b w',
    delete_key_file (PStr kid) w = (Ok b, w')
    /\ accounts w' = accounts w /\ undeletable w' = undeletable w
    /\ (is_Some (files w !! path) -> undeletable w path = true ->
        files w' = files w
        /\ trace w' = trace w ++ [PrintedDeleteError path PermissionError])
    /\ (files w !! path = None \/ undeletable w path = false ->
        files w' = delete path (files w)).
Proof.
  intros path. unfold delete_key_file. simpl. fold path.
  unfold mbind at 1, prog_bind. rewrite lift_run.
  unfold try_except, os_path_exists, os_remove, mbind, prog_bind, mret, prog_ret, emit.
  destruct (files w !! path) as [data|] eqn:Hfile.
  - rewrite bool_decide_eq_true_2 by eauto. rewrite Hfile.
    destruct (undeletable w path) eqn:Hlock.
    + eexists _, _. split; [reflexivity|]. simpl.
      split; [done|]. split; [done|]. split; [done|].
      intros [[=]|[=]].
    + eexists _, _. split; [reflexivity|]. simpl.
      split; [done|]. split; [done|]. split; [|done].
      intros _ [=].
  - rewrite bool_decide_eq_false_2 by (intros [? [=]]).
    eexists _, _. split; [reflexivity|]. simpl.
    split; [done|]. split; [done|]. split.
    + by intros [? [=]].
    + intros _. by rewrite delete_id.
Qed.

(** C3, amended.  [delete_account(uid)] returns without any effect when
    no row has that id.  When the row exists and names a key file (every
    row but the sentinel), the call returns, the rows with that id are
    gone from the table and the other rows stay; the key file is removed
    as well, so that loading the key fails with FileNotFoundError,
    unless [os.remove] fails: then the failure is printed, the file
    stays, and the row is deleted all the same. *)
Theorem delete_account_removes_row_and_key (uid : Z) (w : World) :
  (List.find (fun b => bool_decide (id b = uid)) (accounts w) = None ->
   delete_account uid w = (Ok tt, w))
  /\ (forall a kid,
      List.find (fun b => bool_decide (id b = uid)) (accounts w) = Some a ->
      key_file a = PStr kid ->
      let path := os_path_join KEYS_DIRECTORY (kid ++ KEY_FILE_EXTENSION) in
      exists w',
        delete_account uid w = (Ok tt, w')
        /\ accounts w'
           = List.filter (fun b => negb (bool_decide (id b = uid))) (accounts w)
        /\ load_accounts w' = (Ok (accounts w'), w')
        /\ Forall (fun b => id b <> uid) (accounts w')
        /\ (files w !! path = None \/ undeletable w path = false ->
            files w' = delete path (files w)
            /\ read_key_from_file (key_file a) w' = (Raise FileNotFoundError, w'))
        /\ (is_Some (files w !! path) -> undeletable w path = true ->
            files w' = files w
            /\ In (PrintedDeleteError path PermissionError) (trace w'))).
Proof.
  split.
  - intros Hfind. unfold delete_account, query_first, mbind, prog_bind.
    by rewrite Hfind.
  - intros a kid Hfind Hkey path.
    destruct (find_by_id_some _ _ _ Hfind) as [Hid _].
    destruct (delete_key_file_run kid w) as (b & w1 & Hdel & Hacc & _ & Hfail & Hgone).
    fold path in Hfail, Hgone.
    set (rows' := List.filter (fun b => negb (bool_decide (id b = uid))) (accounts w)).
    exists (mkWorld rows' (files w1) (undeletable w1) (entropy w1) (drawn w1)
              (trace w1 ++ [Committed])).
    split.
    { unfold delete_account, query_first, mbind, prog_bind. rewrite Hfind, Hkey, Hdel.
      unfold session_commit, set_accounts. by rewrite Hacc, Hid. }
    simpl. split; [done|]. split; [done|]. split; [apply filter_other_ids|].
    split.
    + intros Hcase. rewrite (Hgone Hcase). split; [done|].
      rewrite Hkey. unfold read_key_from_file, mbind, prog_bind. simpl.
      fold path. unfold read_file. simpl. by rewrite lookup_delete_eq.
    + intros Hsome Hlock. destruct (Hfail Hsome Hlock) as [-> ->].
      split; [done|]. apply in_or_app. left. apply in_or_app. right. by left.
Qed.

End DeleteTheorems.

Lemma delete_master_row_raises_witness :
  delete_account (L := Sample.lib) 1 Scenario.with_master
  = (Raise TypeError, Scenario.with_master).
Proof.
  apply (delete_master_row_raises (L := Sample.lib) 1
           (mkAccount 1 PNone PNone PNone PNone (PStr (lit "master"))
              (PStr (Sample.digest (Sample.encode (lit "secret"))))));
    reflexivity.
Defined.

(** C3 as stated fails on two inputs.  The sentinel row exists, yet
    deleting it raises and the row is still loaded afterwards; and on a
    disk that refuses the removal the key can still be loaded after the
    row is gone. *)
Lemma delete_account_counterexample :
  (let w := Scenario.with_master in
   (exists a, In a (accounts w) /\ id a = 1)
   /\ fst (delete_account (L := Sample.lib) 1 w) = Raise TypeError
   /\ (exists a, In a (accounts (snd (delete_account (L := Sample.lib) 1 w)))
                 /\ id a = 1))
  /\ (let w := Scenario.saved Scenario.locked in
      let w' := snd (delete_account (L := Sample.lib) 1 w) in
      (exists a, In a (accounts w) /\ id a = 1)
      /\ fst (delete_account (L := Sample.lib) 1 w) = Ok tt
      /\ accounts w' = []
      /\ fst (read_key_from_file (L := Sample.lib)
                (PStr (take 15 (Sample.digest (next_bytes 32 Scenario.locked)))) w')
         = Ok (next_bytes 32 Scenario.locked)).
Proof.
  split.
  - split; [|split].
    + eexists. split; [left; reflexivity | reflexivity].
    + reflexivity.
    + eexists. split; [left; reflexivity | reflexivity].
  - split; [|split; [|split]].
    + eexists. split; [left; reflexivity | reflexivity].
    + vm_compute. reflexivity.
    + vm_compute. reflexivity.
    + vm_compute. reflexivity.
Qed.

Lemma delete_account_removes_row_and_key_witness :
  let w := Scenario.saved Sample.fresh in
  exists w',
    delete_account (L := Sample.lib) 1 w = (Ok tt, w')
    /\ accounts w' = []
    /\ read_key_from_file (L := Sample.lib)
         (PStr (take 15 (Sample.digest (next_bytes 32 Sample.fresh)))) w'
       = (Raise FileNotFoundError, w').
Proof.
  intros w.
  destruct (delete_account_removes_row_and_key (L := Sample.lib) 1 w) as [_ H].
  destruct (H (hd (mkAccount 0 PNone PNone PNone PNone PNone PNone) (accounts w))
              (take 15 (Sample.digest (next_bytes 32 Sample.fresh))) eq_refl eq_refl)
    as (w' & Hrun & Hacc & _ & _ & Hgone & _).
  exists w'. split; [exact Hrun|]. split; [exact Hacc|].
  apply Hgone. right. reflexivity.
Defined.

(** ** The table: updating *)

Section UpdateTheorems.
Context {L : PyLib}.

(** [encrypt] touches neither the table, nor the files, nor the trace. *)
Lemma encrypt_same_store (k : bytes) (v : pyval) (w : World) r w' :
  encrypt k v w = (r, w') -> same_store w w'.
Proof.
  unfold encrypt. destruct (is_empty_or_whitespace v).
  - intros [= _ <-]. apply same_store_refl.
  - unfold mbind, prog_bind, lift, token_bytes, raise, mret, prog_ret.
    destruct (AESGCM k) as [aes|e]; [|intros [= _ <-]; apply same_store_refl].
    destruct v as [|s|b]; simpl.
    + intros [= _ <-]. by repeat split.
    + destruct (aesgcm_encrypt _ _ _); intros [= _ <-]; by repeat split.
    + intros [= _ <-]. by repeat split.
Qed.

Lemma read_key_from_file_world (file_name : pyval) (w : World) r w' :
  read_key_from_file file_name w = (r, w') -> w' = w.
Proof.
  unfold read_key_from_file, mbind, prog_bind, lift, read_file.
  destruct (build_key_file_path file_name) as [path|e]; [|by intros [= _ <-]].
  destruct (files w !! path); by intros [= _ <-].
Qed.

Lemma column_named_not_editable (name : pystr) :
  ~ In name editable_columns -> column_named name = None.
Proof.
  intros Hnot. unfold column_named.
  repeat (case_bool_decide;
          [exfalso; apply Hnot; subst name; unfold editable_columns; simpl; auto 10|]).
  done.
Qed.

Lemma value_to_store_same_store row v w r w' :
  value_to_store row v w = (r, w') -> same_store w w'.
Proof.
  unfold value_to_store. destruct (negb (is_empty_or_whitespace v)).
  - unfold mbind, prog_bind.
    destruct (read_key_from_file (key_file row) w) as [[key|e] w1] eqn:Hread.
    + apply read_key_from_file_world in Hread as ->. apply encrypt_same_store.
    + apply read_key_from_file_world in Hread as ->.
      intros [= _ <-]. apply same_store_refl.
  - intros [= _ <-]. apply same_store_refl.
Qed.

Lemma update_account_unfold uid name v w :
  update_account uid name v w
  = match List.find (fun a => bool_decide (id a = uid)) (accounts w) with
    | None => (Raise ValueError, w)
    | Some row =>
        match value_to_store row v w with
        | (Ok v', w1) =>
            match column_named name with
            | Some c => session_commit (SessionAssign row c v') w1
            | None => (Raise ValueError, w1)
            end
        | (Raise e, w1) => (Raise e, w1)
        end
    end.
Proof.
  unfold update_account, query_first, mbind at 1, prog_bind at 1.
  destruct (List.find _ _) as [row|]; [|done].
  unfold mbind at 1, prog_bind at 1. fold (value_to_store row v).
  destruct (value_to_store row v w) as [[v'|e] w1]; [|done].
  by destruct (column_named name).
Qed.

(** C4.  [update_account(uid, fieldName, newValue)] raises when no row
    has id [uid] (ValueError, before anything else happens), and raises
    when [fieldName] is none of Website, Notes, Email, Username,
    Password; in both cases the table and the key files are what they
    were before the call. *)
Theorem update_account_rejects (uid : Z) (name : pystr) (new_value : pyval)
    (w : World) :
  (List.find (fun a => bool_decide (id a = uid)) (accounts w) = None ->
   update_account uid name new_value w = (Raise ValueError, w))
  /\ (~ In name editable_columns ->
      exists e w',
        update_account uid name new_value w = (Raise e, w')
        /\ accounts w' = accounts w /\ files w' = files w).
Proof.
  rewrite update_account_unfold. split.
  - by intros ->.
  - intros Hname. rewrite (column_named_not_editable name Hname).
    destruct (List.find _ _) as [row|].
    + destruct (value_to_store row new_value w) as [[v'|e] w1] eqn:Hv;
        apply value_to_store_same_store in Hv as (Ha & Hf & _);
        eexists _, _; (split; [reflexivity|done]).
    + by exists ValueError, w.
Qed.

Lemma Forall2_map_self {A : Type} (R : A -> A -> Prop) (f : A -> A) (l : list A) :
  (forall a, R a (f a)) -> Forall2 R l (map f l).
Proof. intros H. induction l; simpl; constructor; auto. Qed.

Lemma get_set_column_other (c c' : column) (v : pyval) (a : Account) :
  c' <> c -> get_column c' (set_column c v a) = get_column c' a.
Proof. by destruct c, c'. Qed.

(** C5.  When [update_account(uid, fieldName, newValue)] succeeds,
    [fieldName] names one of the five editable columns and the table
    afterwards is the table before, row by row, where a row with
    another id is the same row, and the row with id [uid] has the same
    id, the same key_file and the same value in each editable column
    other than the targeted one.  The key files are untouched. *)
Theorem update_account_frame (uid : Z) (name : pystr) (new_value : pyval)
    (w w' : World) :
  update_account uid name new_value w = (Ok tt, w') ->
  exists c,
    column_named name = Some c
    /\ files w' = files w
    /\ Forall2 (fun a a' =>
                  (id a <> uid -> a' = a)
                  /\ id a' = id a /\ key_file a' = key_file a
                  /\ forall c', c' <> c -> get_column c' a' = get_column c' a)
         (accounts w) (accounts w').
Proof.
  rewrite update_account_unfold.
  destruct (List.find _ _) as [row|] eqn:Hfind; [|discriminate].
  apply find_some in Hfind as [_ Hid%bool_decide_eq_true].
  destruct (value_to_store row new_value w) as [[v'|e] w1] eqn:Hv; [|discriminate].
  apply value_to_store_same_store in Hv as (Ha & Hf & _).
  destruct (column_named name) as [c|]; [|discriminate].
  unfold session_commit, set_accounts.
  destruct (bool_decide (c = Password) && bool_decide (v' = PNone)); [discriminate|].
  intros [= <-]. simpl. exists c. split; [done|]. split; [done|].
  rewrite Ha. apply Forall2_map_self. intros a. rewrite Hid.
  case_bool_decide as Ha'.
  - split; [done|]. split; [by destruct c|]. split; [by destruct c|].
    intros c' Hc'. by apply get_set_column_other.
  - done.
Qed.

End UpdateTheorems.

Lemma update_account_rejects_witness :
  let w := Scenario.saved Sample.fresh in
  update_account (L := Sample.lib) 999 (lit "Website") (PStr (lit "x")) w
  = (Raise ValueError, w)
  /\ exists e w',
       update_account (L := Sample.lib) 1 (lit "website") (PStr (lit "x")) w
       = (Raise e, w')
       /\ accounts w' = accounts w /\ files w' = files w.
Proof.
  intros w. split.
  - apply (update_account_rejects (L := Sample.lib)). reflexivity.
  - apply (update_account_rejects (L := Sample.lib)).
    unfold editable_columns. simpl. intros [H|[H|[H|[H|[H|[]]]]]]; discriminate H.
Defined.

Lemma update_account_frame_witness :
  let w := Scenario.saved Sample.fresh in
  let w' := snd (update_account (L := Sample.lib) 1 (lit "Website")
                   (PStr (lit "new.com")) w) in
  exists c,
    column_named (lit "Website") = Some c
    /\ files w' = files w
    /\ Forall2 (fun a a' =>
                  (id a <> 1 -> a' = a)
                  /\ id a' = id a /\ key_file a' = key_file a
                  /\ forall c', c' <> c -> get_column c' a' = get_column c' a)
         (accounts w) (accounts w').
Proof.
  intros w w'.
  apply (update_account_frame (L := Sample.lib) 1 (lit "Website") (PStr (lit "new.com"))).
  vm_compute. reflexivity.
Defined.

(** ** The master password *)

Section LoginTheorems.
Context {L : PyLib}.

Lemma find_snoc_none {A : Type} (p : A -> bool) (l : list A) (a : A) :
  List.find p l = None -> List.find p (l ++ [a]) = if p a then Some a else None.
Proof.
  induction l as [|b l IH]; simpl; [done|].
  destruct (p b); [discriminate | exact IH].
Qed.

Lemma fetch_master_password_run (w : World) :
  fetch_master_password w
  = (Ok (match List.find is_master (accounts w) with
         | Some a => password a
         | None => PNone
         end), w).
Proof.
  unfold fetch_master_password, query_first, mbind, prog_bind.
  fold is_master. by destruct (List.find is_master (accounts w)).
Qed.

(** [login] when a master row with a stored hash is there. *)
Lemma login_set (candidate : pystr) (w : World) (a : Account) :
  List.find is_master (accounts w) = Some a ->
  password a <> PNone ->
  login candidate w
  = (if bool_decide (PStr (sha256_hexdigest (utf8_encode candidate)) = password a)
     then LoggedIn else IncorrectMasterPassword, w).
Proof.
  intros Hfind Hpw. unfold login, mbind at 1, prog_bind at 1.
  rewrite fetch_master_password_run, Hfind.
  destruct (password a) as [|s|b] eqn:Hp; [done| |];
    unfold mbind, prog_bind, lift, hash_str, str_eq, mret, prog_ret;
    by case_bool_decide.
Qed.

(** [login] when no master row is there. *)
Lemma login_unset (candidate : pystr) (w : World) :
  let h := sha256_hexdigest (utf8_encode candidate) in
  let sentinel := mkAccount (next_rowid (accounts w)) PNone PNone PNone PNone
                    (PStr (lit "master")) (PStr h) in
  List.find is_master (accounts w) = None ->
  login candidate w
  = (MasterPasswordSet,
     mkWorld (accounts w ++ [sentinel]) (files w) (undeletable w)
       (entropy w) (drawn w) (trace w ++ [Committed])).
Proof.
  intros h sentinel Hnone.
  unfold login, mbind at 1, prog_bind at 1.
  rewrite fetch_master_password_run, Hnone.
  unfold mbind, prog_bind, lift, hash_str, set_master_password,
    session_commit, set_accounts, mret, prog_ret.
  simpl. fold h. fold sentinel. done.
Qed.

(** C8.  [login] (the authenticate of the specification) has two states.
    Unset, no row has username "master": the call stores one new row
    with username "master" whose password column is the hash of the
    candidate, and reports that the master password was set.  Set, the
    sentinel row is there (its password is not NULL, a constraint of
    the table): the call lets the user in exactly when the hash of the
    candidate equals the stored hash, and leaves the world as it was, so
    the stored hash is neither changed nor written again; this is the
    state every later call finds. *)
Theorem login_two_states (candidate : pystr) (w : World) :
  let h := sha256_hexdigest (utf8_encode candidate) in
  (List.find is_master (accounts w) = None ->
   let sentinel := mkAccount (next_rowid (accounts w)) PNone PNone PNone PNone
                     (PStr (lit "master")) (PStr h) in
   exists w',
     login candidate w = (MasterPasswordSet, w')
     /\ accounts w' = accounts w ++ [sentinel]
     /\ files w' = files w
     /\ fetch_master_password w' = (Ok (PStr h), w')
     /\ forall later,
          login later w'
          = (if bool_decide (sha256_hexdigest (utf8_encode later) = h)
             then LoggedIn else IncorrectMasterPassword, w'))
  /\ (forall a,
      List.find is_master (accounts w) = Some a ->
      password a <> PNone ->
      fetch_master_password w = (Ok (password a), w)
      /\ login candidate w
         = (if bool_decide (PStr h = password a)
            then LoggedIn else IncorrectMasterPassword, w)).
Proof.
  intros h. split.
  - intros Hnone sentinel.
    set (w' := mkWorld (accounts w ++ [sentinel]) (files w) (undeletable w)
                 (entropy w) (drawn w) (trace w ++ [Committed])).
    assert (List.find is_master (accounts w') = Some sentinel) as Hfind'.
    { simpl. by rewrite (find_snoc_none _ _ _ Hnone). }
    exists w'. split; [|split; [done|split; [done|split]]].
    + by apply login_unset.
    + by rewrite fetch_master_password_run, Hfind'.
    + intros later. rewrite (login_set later w' sentinel Hfind'); [|done].
      simpl. do 2 case_bool_decide; congruence.
  - intros a Hfind Hpw. split.
    + by rewrite fetch_master_password_run, Hfind.
    + by apply login_set.
Qed.

End LoginTheorems.

Lemma login_two_states_witness :
  exists w',
    login (L := Sample.lib) (lit "secret") Sample.fresh = (MasterPasswordSet, w')
    /\ fst (login (L := Sample.lib) (lit "wrong") w') = IncorrectMasterPassword
    /\ login (L := Sample.lib) (lit "secret") w' = (LoggedIn, w').
Proof.
  destruct (login_two_states (L := Sample.lib) (lit "secret") Sample.fresh) as [Hunset _].
  destruct (Hunset eq_refl) as (w' & Hrun & Hacc & _ & _ & Hlater).
  exists w'. split; [exact Hrun|]. split.
  - rewrite (Hlater (lit "wrong")). reflexivity.
  - rewrite (Hlater (lit "secret")). reflexivity.
Defined.

(** ** The table: saving *)

Section SaveTheorems.
Context {L : PyLib} {laws : PyLibLaws L}.

Lemma next_rowid_above (rows : list Account) :
  Forall (fun a => id a < next_rowid rows) rows.
Proof.
  unfold next_rowid, max_rowid. destruct rows as [|a rows]; [constructor|].
  assert (forall m, m <= foldr (fun b m => Z.max (id b) m) m rows
                    /\ Forall (fun b => id b <= foldr (fun b m => Z.max (id b) m) m rows) rows)
    as Hmax.
  { induction rows as [|b rows IH]; intros m; simpl; [split; [lia|constructor]|].
    destruct (IH m) as [Hm Hall]. split; [lia|]. constructor; [lia|].
    eapply Forall_impl; [exact Hall|]. simpl. intros; lia. }
  destruct (Hmax (id a)) as [Ha Hall]. constructor; [lia|].
  eapply Forall_impl; [exact Hall|]. simpl. intros; lia.
Qed.


Lemma insert_allowed_fresh (rows : list Account) (a : Account) :
  password a <> PNone ->
  Forall (fun b => key_file b <> key_file a) rows ->
  insert_allowed rows a = true.
Proof.
  intros Hpw Hfresh. unfold insert_allowed.
  rewrite bool_decide_eq_false_2 by done. simpl.
  apply orb_true_iff. right. apply forallb_forall. intros b Hb.
  rewrite List.Forall_forall in Hfresh.
  apply negb_true_iff, bool_decide_eq_false_2. by apply Hfresh.
Qed.

(** [encrypt] returns for every 32-byte key. *)
Lemma encrypt_returns (key : bytes) (s : pystr) (w : World) :
  length key = 32%nat ->
  exists v w', encrypt key (PStr s) w = (Ok v, w') /\ same_store w w'.
Proof.
  intros Hk. destruct (is_empty_or_whitespace (PStr s)) eqn:Hs.
  - exists (PStr s), w. split; [by apply encrypt_blank | apply same_store_refl].
  - destruct (aesgcm_encrypt_total key (next_bytes 12 w) (utf8_encode s) Hk
                (next_bytes_length 12 w)) as [c Hc].
    destruct (encrypt_text key s w Hk Hs) as (w' & Hrun & Hst & _).
    rewrite Hc in Hrun. eauto.
Qed.

(** When the name of the new key is taken, the commit is refused: the
    call prints the error and raises it, the table and the key files are
    what they were. *)
Lemma save_account_key_id_taken
    (website notes email username password : pystr) (w : World) :
  let key_id := take 15 (sha256_hexdigest (next_bytes 32 w)) in
  Exists (fun a => key_file a = PStr key_id) (accounts w) ->
  exists w',
    save_account (PStr website) (PStr notes) (PStr email) (PStr username)
      (PStr password) w = (Raise IntegrityError, w')
    /\ accounts w' = accounts w /\ files w' = files w
    /\ trace w' = trace w ++ [PrintedSaveError IntegrityError].
Proof.
  intros key_id Htaken. subst key_id. set (key := next_bytes 32 w) in *.
  set (key_id := take 15 (sha256_hexdigest key)) in *.
  pose proof (next_bytes_length 32 w) as Hk. fold key in Hk.
  destruct (token_bytes_run 32 w) as (w1 & Hgen & Hst1 & _). fold key in Hgen.
  destruct (encrypt_returns key website w1 Hk) as (v1 & w2 & Hrun1 & Hst2).
  destruct (encrypt_returns key notes w2 Hk) as (v2 & w3 & Hrun2 & Hst3).
  destruct (encrypt_returns key email w3 Hk) as (v3 & w4 & Hrun3 & Hst4).
  destruct (encrypt_returns key username w4 Hk) as (v4 & w5 & Hrun4 & Hst5).
  destruct (encrypt_returns key password w5 Hk) as (v5 & w6 & Hrun5 & Hst6).
  assert (same_store w w6) as (Hacc & Hfiles & Hund & Hent & Htr).
  { do 5 (eapply same_store_trans; [eassumption|]). exact Hst6. }
  assert (insert_allowed (accounts w)
            (mkAccount (next_rowid (accounts w)) (PStr key_id) v1 v2 v3 v4 v5)
          = false) as Hrefused.
  { unfold insert_allowed. apply andb_false_iff. right. simpl.
    apply not_true_iff_false. rewrite forallb_forall. intros Hall.
    apply List.Exists_exists in Htaken as (a & Hin & Ha).
    specialize (Hall a Hin). apply negb_true_iff, bool_decide_eq_false in Hall.
    done. }
  eexists. split.
  { unfold save_account, try_except, generate_key.
    rewrite (bind_ok _ _ _ _ _ Hgen).
    unfold hash_str. unfold mbind at 1, prog_bind at 1. rewrite lift_run.
    fold key_id.
    rewrite (bind_ok _ _ _ _ _ Hrun1), (bind_ok _ _ _ _ _ Hrun2),
      (bind_ok _ _ _ _ _ Hrun3), (bind_ok _ _ _ _ _ Hrun4),
      (bind_ok _ _ _ _ _ Hrun5).
    unfold mbind, prog_bind, session_commit. rewrite Hacc, Hrefused.
    reflexivity. }
  simpl. by rewrite Hacc, Hfiles, Htr.
Qed.


End SaveTheorems.


(** ** The constraints of the table are an invariant *)

Section SchemaInvariant.









End SchemaInvariant.

(** * Further properties of the code *)

(** ** utils/cryptography.py: the key files *)

Section KeyStoreTheorems.
Context {L : PyLib}.

(** X4.  [delete_key_file] on a name never raises: it answers [True]
    exactly when a file is there and [os.remove] goes through, and then
    the file is gone, reading the key raises FileNotFoundError and a
    second call answers [False]; it answers [False] and leaves the files
    alone when there is no file or the removal fails.  The table is not
    touched. *)
Theorem delete_key_file_spec (name : pystr) (w : World) :
  let path := os_path_join KEYS_DIRECTORY (name ++ KEY_FILE_EXTENSION) in
  exists deleted w',
    delete_key_file (PStr name) w = (Ok deleted, w')
    /\ accounts w' = accounts w
    /\ (deleted = true <-> is_Some (files w !! path) /\ undeletable w path = false)
    /\ (deleted = true ->
        files w' = delete path (files w)
        /\ read_key_from_file (PStr name) w' = (Raise FileNotFoundError, w')
        /\ fst (delete_key_file (PStr name) w') = Ok false)
    /\ (deleted = false -> files w' = files w).
Proof.
  intros path. unfold delete_key_file. simpl. fold path.
  unfold mbind at 1, prog_bind at 1. rewrite lift_run.
  unfold try_except, os_path_exists, os_remove, mbind, prog_bind, mret, prog_ret, emit.
  destruct (files w !! path) as [data|] eqn:Hfile.
  - rewrite bool_decide_eq_true_2 by eauto. rewrite Hfile.
    destruct (undeletable w path) eqn:Hlock.
    + exists false. eexists. split; [reflexivity|]. simpl.
      split; [done|]. split; [|split; [done|done]].
      split; [done | by intros [_ [=]]].
    + exists true. eexists. split; [reflexivity|]. simpl.
      split; [done|]. split; [|split; [|done]].
      * split; [eauto | done].
      * intros _. split; [done|].
        unfold read_key_from_file, delete_key_file, try_except, os_path_exists,
          mbind, prog_bind, read_file, lift, mret, prog_ret.
        simpl. fold path. rewrite lookup_delete_eq.
        rewrite bool_decide_eq_false_2 by (intros [? [=]]). done.
  - rewrite bool_decide_eq_false_2 by (intros [? [=]]).
    exists false. eexists. split; [reflexivity|]. simpl.
    split; [done|]. split; [|split; [done|done]].
    split; [done | by intros [[? [=]] _]].
Qed.

End KeyStoreTheorems.

(** ** database/database.py: update_account *)

Section UpdateMore.
Context {L : PyLib} {laws : PyLibLaws L}.

Lemma find_map_same_id (f : Account -> Account) (uid : Z) (rows : list Account)
    (row : Account) :
  (forall b, id (f b) = id b) ->
  List.find (fun b => bool_decide (id b = uid)) rows = Some row ->
  List.find (fun b => bool_decide (id b = uid)) (map f rows) = Some (f row).
Proof.
  intros Hf. induction rows as [|b rows IH]; simpl; [done|].
  rewrite Hf. destruct (bool_decide (id b = uid)); [by intros [= ->] | exact IH].
Qed.

(** X5.  [update_account] with a value that is not blank, on an existing
    row whose key file holds a 32-byte key, under one of the five column
    names: the call returns; the named column of the row now holds the
    encryption of the value under the key of the row, with a fresh nonce,
    and reads back as the value; the other editable columns read back as
    they did; key files are untouched.  (The blob is assumed not to
    consist of whitespace octets only.) *)
Theorem update_account_stores (uid : Z) (name s : pystr) (w : World)
    (row : Account) (c : column) (key : bytes) :
  List.find (fun a => bool_decide (id a = uid)) (accounts w) = Some row ->
  column_named name = Some c ->
  is_empty_or_whitespace (PStr s) = false ->
  read_key_from_file (key_file row) w = (Ok key, w) ->
  length key = 32%nat ->
  blob_is_binary key (next_bytes 12 w) s ->
  exists v' w',
    update_account uid name (PStr s) w = (Ok tt, w')
    /\ encryption_of key s v'
    /\ accounts w'
       = map (fun b => if bool_decide (id b = uid) then set_column c v' b else b)
           (accounts w)
    /\ files w' = files w
    /\ List.find (fun a => bool_decide (id a = uid)) (accounts w')
       = Some (set_column c v' row)
    /\ read_back (set_column c v' row) c w' = (Ok (PStr s), w')
    /\ forall c', c' <> c ->
         fst (read_back (set_column c v' row) c' w') = fst (read_back row c' w).
Proof.
  intros Hfind Hc Hs Hkey Hlen Hbin.
  destruct (find_by_id_some _ _ _ Hfind) as [Hid _].
  destruct (encrypt_then_decrypt key s w Hlen Hs Hbin)
    as (ct & w1 & Hct & Hrun & (Hacc & Hfiles & Hund & Hent & Htr) & Hdrawn & Hdec).
  set (v' := PBytes (next_bytes 12 w ++ ct)) in *.
  set (rows' := map (fun b => if bool_decide (id b = uid) then set_column c v' b else b)
                  (accounts w)).
  set (w' := mkWorld rows' (files w1) (undeletable w1) (entropy w1) (drawn w1)
               (trace w1 ++ [Committed])).
  assert (forall r, read_key_from_file (key_file row) w' = (r, w')
                    <-> read_key_from_file (key_file row) w = (r, w)) as Hsame.
  { intros r. unfold read_key_from_file, mbind, prog_bind, lift, read_file. simpl.
    rewrite Hfiles. destruct (build_key_file_path (key_file row)) as [path|e].
    - destruct (files w !! path); split; intros [= <-]; done.
    - split; intros [= <-]; done. }
  exists v', w'. split.
  { rewrite update_account_unfold, Hfind. unfold value_to_store. rewrite Hs. simpl.
    rewrite (bind_ok _ _ _ _ _ Hkey), Hrun, Hc.
    unfold session_commit, set_accounts. simpl.
    rewrite andb_false_r, Hacc, Hid. done. }
  split.
  { unfold encryption_of. rewrite Hs. exists (next_bytes 12 w), ct.
    by rewrite next_bytes_length. }
  split; [done|]. split; [done|]. split.
  { simpl. unfold rows'.
    rewrite (find_map_same_id _ uid _ row); [|intros b|done].
    - by rewrite bool_decide_eq_true_2.
    - case_bool_decide; [by destruct c | done]. }
  split.
  { unfold read_back.
    assert (key_file (set_column c v' row) = key_file row) as -> by (by destruct c).
    apply Hsame in Hkey. rewrite (bind_ok _ _ _ _ _ Hkey), lift_run.
    assert (get_column c (set_column c v' row) = v') as -> by (by destruct c).
    by rewrite Hdec. }
  intros c' Hc'. unfold read_back.
  assert (key_file (set_column c v' row) = key_file row) as -> by (by destruct c).
  rewrite (get_set_column_other c c' v' row Hc').
  apply Hsame in Hkey as Hkey'.
  by rewrite (bind_ok _ _ _ _ _ Hkey'), (bind_ok _ _ _ _ _ Hkey), !lift_run.
Qed.

End UpdateMore.

Lemma update_account_stores_witness :
  let w := Scenario.saved Sample.fresh in
  exists v' w',
    update_account (L := Sample.lib) 1 (lit "Website") (PStr (lit "new.com")) w
    = (Ok tt, w')
    /\ read_back (L := Sample.lib) (set_column Website v' (hd (mkAccount 0 PNone PNone PNone PNone PNone PNone) (accounts w))) Website w'
       = (Ok (PStr (lit "new.com")), w')
    /\ fst (read_back (L := Sample.lib) (set_column Website v' (hd (mkAccount 0 PNone PNone PNone PNone PNone PNone) (accounts w))) Password w')
       = Ok (PStr (lit "pass123")).
Proof.
  intros w.
  destruct (update_account_stores (L := Sample.lib) 1 (lit "Website") (lit "new.com") w
              (hd (mkAccount 0 PNone PNone PNone PNone PNone PNone) (accounts w))
              Website (next_bytes 32 Sample.fresh))
    as (v' & w' & Hrun & _ & _ & _ & _ & Hback & Hother).
  - reflexivity.
  - reflexivity.
  - reflexivity.
  - vm_compute. reflexivity.
  - reflexivity.
  - intros c _. apply not_true_iff_false. intros H%blank_bytes_iff.
    vm_compute in H. discriminate.
  - exists v', w'. split; [exact Hrun|]. split; [exact Hback|].
    rewrite (Hother Password); [|discriminate]. vm_compute. reflexivity.
Defined.

Section UpdateEdges.
Context {L : PyLib}.

(** X6.  [update_account] with a value that is not blank needs the key of
    the row before anything is stored: when the row names no key file
    (the sentinel) the call raises TypeError, when the file is missing
    FileNotFoundError, when the file does not hold 16, 24 or 32 bytes
    ValueError; in each case no nonce is drawn and the world is left as it
    was, whatever the column name. *)
Theorem update_account_needs_key (uid : Z) (name : pystr) (new_value : pyval)
    (w : World) (row : Account) :
  List.find (fun a => bool_decide (id a = uid)) (accounts w) = Some row ->
  is_empty_or_whitespace new_value = false ->
  (key_file row = PNone ->
   update_account uid name new_value w = (Raise TypeError, w))
  /\ (forall kid,
      key_file row = PStr kid ->
      files w !! os_path_join KEYS_DIRECTORY (kid ++ KEY_FILE_EXTENSION) = None ->
      update_account uid name new_value w = (Raise FileNotFoundError, w))
  /\ (forall (kid : pystr) (key : bytes),
      key_file row = PStr kid ->
      files w !! os_path_join KEYS_DIRECTORY (kid ++ KEY_FILE_EXTENSION) = Some key ->
      ~ In (length key) [16; 24; 32]%nat ->
      update_account uid name new_value w = (Raise ValueError, w)).
Proof.
  intros Hfind Hv. rewrite update_account_unfold, Hfind.
  unfold value_to_store. rewrite Hv. simpl.
  unfold read_key_from_file, mbind, prog_bind, lift, read_file.
  split; [|split].
  - by intros ->.
  - intros kid -> Hnone. unfold build_key_file_path. rewrite Hnone. done.
  - intros kid key -> Hsome Hlen. unfold build_key_file_path. rewrite Hsome.
    unfold encrypt. rewrite Hv. unfold AESGCM.
    rewrite !bool_decide_eq_false_2; [done| | |];
      intros Heq; apply Hlen; rewrite Heq; simpl; auto.
Qed.

End UpdateEdges.

Lemma update_account_needs_key_witness :
  update_account (L := Sample.lib) 1 (lit "Password") (PStr (lit "x"))
    Scenario.with_master
  = (Raise TypeError, Scenario.with_master).
Proof.
  destruct (update_account_needs_key (L := Sample.lib) 1 (lit "Password")
              (PStr (lit "x")) Scenario.with_master
              (mkAccount 1 PNone PNone PNone PNone (PStr (lit "master"))
                 (PStr (Sample.digest (Sample.encode (lit "secret")))))
              eq_refl eq_refl) as [Hnull _].
  apply Hnull. reflexivity.
Defined.

(** ** database/database.py: what an operation does to the table *)

Section TableEffects.
Context {L : PyLib}.

(** A value that went through [encrypt] is not the text "master": it is
    blank, or it is a blob. *)
Lemma encrypt_outcome (key : bytes) (v : pyval) (w : World) :
  exists r w',
    encrypt key v w = (r, w') /\ same_store w w'
    /\ forall v', r = Ok v' -> v' <> PStr (lit "master").
Proof.
  destruct (encrypt key v w) as [r w'] eqn:Hrun. exists r, w'.
  split; [done|]. split; [by apply encrypt_same_store in Hrun|].
  intros v' ->. revert Hrun. unfold encrypt.
  destruct (is_empty_or_whitespace v) eqn:Hv.
  - intros [= -> _] ->. discriminate Hv.
  - unfold mbind, prog_bind, lift, token_bytes, raise, mret, prog_ret.
    destruct (AESGCM key); [|discriminate].
    destruct v as [|s|b]; simpl; try discriminate.
    destruct (aesgcm_encrypt _ _ _); [|discriminate]. by intros [= <- _].
Qed.

(** The table after [save_account] is the table before, or the table
    before with one row appended that the constraints allow; the row has
    the next id and a username that is not the text "master". *)
Lemma save_account_table (website notes email username password : pyval)
    (w : World) r w' :
  save_account website notes email username password w = (r, w') ->
  accounts w' = accounts w
  \/ exists k v1 v2 v3 v4 v5,
       let row := mkAccount (next_rowid (accounts w)) k v1 v2 v3 v4 v5 in
       accounts w' = accounts w ++ [row]
       /\ insert_allowed (accounts w) row = true
       /\ v4 <> PStr (lit "master").
Proof.
  unfold save_account, try_except, generate_key.
  destruct (token_bytes_run 32 w) as (w1 & Hgen & Hst1 & _).
  rewrite (bind_ok _ _ _ _ _ Hgen).
  unfold hash_str. unfold mbind at 1, prog_bind at 1. rewrite lift_run.
  set (key := next_bytes 32 w). set (kid := PStr (take 15 (sha256_hexdigest key))).
  destruct (encrypt_outcome key website w1) as ([v1|e] & w2 & H1 & Hst2 & _);
    [rewrite (bind_ok _ _ _ _ _ H1) | rewrite (bind_raise _ _ _ _ _ H1)].
  2: { intros [= _ <-]. left. simpl.
       destruct Hst1 as [E1 _], Hst2 as [E2 _]. congruence. }
  destruct (encrypt_outcome key notes w2) as ([v2|e] & w3 & H2 & Hst3 & _);
    [rewrite (bind_ok _ _ _ _ _ H2) | rewrite (bind_raise _ _ _ _ _ H2)].
  2: { intros [= _ <-]. left. simpl.
       destruct Hst1 as [E1 _], Hst2 as [E2 _], Hst3 as [E3 _]. congruence. }
  destruct (encrypt_outcome key email w3) as ([v3|e] & w4 & H3 & Hst4 & _);
    [rewrite (bind_ok _ _ _ _ _ H3) | rewrite (bind_raise _ _ _ _ _ H3)].
  2: { intros [= _ <-]. left. simpl.
       destruct Hst1 as [E1 _], Hst2 as [E2 _], Hst3 as [E3 _], Hst4 as [E4 _].
       congruence. }
  destruct (encrypt_outcome key username w4) as ([v4|e] & w5 & H4 & Hst5 & Hv4);
    [rewrite (bind_ok _ _ _ _ _ H4) | rewrite (bind_raise _ _ _ _ _ H4)].
  2: { intros [= _ <-]. left. simpl.
       destruct Hst1 as [E1 _], Hst2 as [E2 _], Hst3 as [E3 _], Hst4 as [E4 _],
         Hst5 as [E5 _]. congruence. }
  destruct (encrypt_outcome key password w5) as ([v5|e] & w6 & H5 & Hst6 & _);
    [rewrite (bind_ok _ _ _ _ _ H5) | rewrite (bind_raise _ _ _ _ _ H5)].
  2: { intros [= _ <-]. left. simpl.
       destruct Hst1 as [E1 _], Hst2 as [E2 _], Hst3 as [E3 _], Hst4 as [E4 _],
         Hst5 as [E5 _], Hst6 as [E6 _]. congruence. }
  assert (accounts w6 = accounts w) as Hacc.
  { destruct Hst1 as [E1 _], Hst2 as [E2 _], Hst3 as [E3 _], Hst4 as [E4 _],
      Hst5 as [E5 _], Hst6 as [E6 _]. congruence. }
  unfold mbind, prog_bind, session_commit. rewrite Hacc.
  destruct (insert_allowed (accounts w)
              (mkAccount (next_rowid (accounts w)) kid v1 v2 v3 v4 v5)) eqn:Hallowed.
  - unfold set_accounts, save_key_to_file, mbind, prog_bind, write_file. simpl.
    intros [= _ <-]. right. exists kid, v1, v2, v3, v4, v5. simpl. auto.
  - simpl. intros [= _ <-]. by left.
Qed.

(** The run of [save_account] on five strings when the name of the key is
    free. *)
Lemma save_account_run (website notes email username password : pystr)
    (w : World) {laws : PyLibLaws L} :
  let key := next_bytes 32 w in
  let key_id := take 15 (sha256_hexdigest key) in
  let path := os_path_join KEYS_DIRECTORY (key_id ++ KEY_FILE_EXTENSION) in
  Forall (fun a => key_file a <> PStr key_id) (accounts w) ->
  exists v1 v2 v3 v4 v5 n,
    save_account (PStr website) (PStr notes) (PStr email) (PStr username)
      (PStr password) w
    = (Ok tt,
       mkWorld (accounts w
                ++ [mkAccount (next_rowid (accounts w)) (PStr key_id) v1 v2 v3 v4 v5])
         (<[path := key]> (files w)) (undeletable w) (entropy w) n
         (trace w ++ [Committed; FileWritten path])).
Proof.
  intros key key_id path Hfresh.
  pose proof (next_bytes_length 32 w) as Hk. fold key in Hk.
  destruct (token_bytes_run 32 w) as (w1 & Hgen & Hst1 & _). fold key in Hgen.
  destruct (encrypt_returns key website w1 Hk) as (v1 & w2 & Hrun1 & Hst2).
  destruct (encrypt_returns key notes w2 Hk) as (v2 & w3 & Hrun2 & Hst3).
  destruct (encrypt_returns key email w3 Hk) as (v3 & w4 & Hrun3 & Hst4).
  destruct (encrypt_returns key username w4 Hk) as (v4 & w5 & Hrun4 & Hst5).
  destruct (encrypt_outcome key (PStr password) w5)
    as (r5 & w6 & Hrun5 & Hst6 & _).
  destruct (encrypt_returns key password w5 Hk) as (v5 & w6' & Hrun5' & _).
  rewrite Hrun5 in Hrun5'. injection Hrun5' as -> <-.
  assert (v5 <> PNone) as Hpw.
  { intros ->. revert Hrun5. unfold encrypt.
    destruct (is_empty_or_whitespace (PStr password)); [discriminate|].
    unfold mbind, prog_bind, lift, token_bytes, mret, prog_ret.
    destruct (AESGCM key); [|discriminate]. simpl.
    destruct (aesgcm_encrypt _ _ _); discriminate. }
  assert (same_store w w6) as (Hacc & Hfiles & Hund & Hent & Htr).
  { do 5 (eapply same_store_trans; [eassumption|]). exact Hst6. }
  exists v1, v2, v3, v4, v5, (drawn w6).
  unfold save_account, try_except, generate_key.
  rewrite (bind_ok _ _ _ _ _ Hgen).
  unfold hash_str. unfold mbind at 1, prog_bind at 1. rewrite lift_run.
  fold key_id.
  rewrite (bind_ok _ _ _ _ _ Hrun1), (bind_ok _ _ _ _ _ Hrun2),
    (bind_ok _ _ _ _ _ Hrun3), (bind_ok _ _ _ _ _ Hrun4),
    (bind_ok _ _ _ _ _ Hrun5).
  unfold mbind, prog_bind, session_commit. rewrite Hacc.
  rewrite (insert_allowed_fresh (accounts w)
             (mkAccount (next_rowid (accounts w)) (PStr key_id) v1 v2 v3 v4 v5) Hpw Hfresh).
  unfold set_accounts, save_key_to_file, mbind, prog_bind, write_file.
  simpl. fold key_id path. rewrite Hfiles, Hund, Hent, Htr.
  by rewrite <- app_assoc.
Qed.

End TableEffects.

Section TableEffectsMore.
Context {L : PyLib}.

(** A blank value, or one that went through [encrypt], is not the text
    "master". *)
Lemma value_to_store_outcome (row : Account) (v : pyval) (w : World) r w' :
  value_to_store row v w = (r, w') ->
  accounts w' = accounts w
  /\ forall v', r = Ok v' -> v' <> PStr (lit "master").
Proof.
  intros Hrun. split; [by apply value_to_store_same_store in Hrun as [? _]|].
  revert Hrun. unfold value_to_store.
  destruct (is_empty_or_whitespace v) eqn:Hv; simpl.
  - intros [= <- _] v' [= <-] ->. discriminate Hv.
  - unfold mbind, prog_bind.
    destruct (read_key_from_file (key_file row) w) as [[key|e] w1];
      [|by intros [= <- _] v' [=]].
    intros Hrun v' ->.
    destruct (encrypt_outcome key v w1) as (r1 & w2 & Hrun' & _ & Hv').
    rewrite Hrun in Hrun'. injection Hrun' as <- _. by apply Hv'.
Qed.

(** The table after [update_account] is the table before, or the table
    before with one column rewritten in the rows of that id. *)
Lemma update_account_table (uid : Z) (name : pystr) (v : pyval) (w : World) r w' :
  update_account uid name v w = (r, w') ->
  accounts w' = accounts w
  \/ exists row c v',
       List.find (fun a => bool_decide (id a = uid)) (accounts w) = Some row
       /\ session_commit (SessionAssign row c v') w
          = (Ok tt, mkWorld (accounts w') (files w) (undeletable w) (entropy w)
                      (drawn w) (trace w ++ [Committed]))
       /\ accounts w'
          = map (fun b => if bool_decide (id b = uid) then set_column c v' b else b)
              (accounts w)
       /\ v' <> PStr (lit "master").
Proof.
  rewrite update_account_unfold.
  destruct (List.find _ _) as [row|] eqn:Hfind; [|intros [= _ <-]; by left].
  destruct (find_by_id_some _ _ _ Hfind) as [Hid _].
  destruct (value_to_store row v w) as [[v'|e] w1] eqn:Hv;
    apply value_to_store_outcome in Hv as [Hacc Hv'];
    [|intros [= _ <-]; by left].
  destruct (column_named name) as [c|]; [|intros [= _ <-]; by left].
  unfold session_commit, set_accounts.
  destruct (bool_decide (c = Password) && bool_decide (v' = PNone)) eqn:Hguard;
    [intros [= _ <-]; by left|].
  intros [= _ <-]. right. exists row, c, v'. simpl. rewrite Hacc.
  split; [done|]. split; [|split; [by rewrite Hid | by apply Hv']].
  by rewrite Hguard.
Qed.

(** The table after [delete_account] is the table before, or the table
    before without the rows of that id. *)
Lemma delete_account_table (uid : Z) (w : World) r w' :
  delete_account uid w = (r, w') ->
  accounts w' = accounts w
  \/ exists row,
       List.find (fun a => bool_decide (id a = uid)) (accounts w) = Some row
       /\ accounts w'
          = List.filter (fun b => negb (bool_decide (id b = uid))) (accounts w).
Proof.
  unfold delete_account, query_first, mbind at 1, prog_bind at 1.
  destruct (List.find _ _) as [row|] eqn:Hfind; [|intros [= _ <-]; by left].
  destruct (find_by_id_some _ _ _ Hfind) as [Hid _].
  destruct (key_file row) as [|kid|b] eqn:Hkey;
    [intros [= _ <-]; by left| |intros [= _ <-]; by left].
  destruct (delete_key_file_run kid w) as (b & w1 & Hdel & Hacc & _).
  unfold mbind, prog_bind. rewrite Hdel.
  unfold session_commit, set_accounts. intros [= _ <-]. right.
  exists row. simpl. by rewrite Hacc, Hid.
Qed.

Lemma find_snoc_false {A : Type} (p : A -> bool) (l : list A) (a : A) :
  p a = false -> List.find p (l ++ [a]) = List.find p l.
Proof.
  intros Ha. induction l as [|b l IH]; simpl; [by rewrite Ha|].
  by destruct (p b).
Qed.

End TableEffectsMore.

(** ** database/database.py: invariants of the repository *)

Section Invariants.
Context {L : PyLib}.


(** X9.  The stored master hash is out of reach of the account
    operations.  [fetch_master_password] returns the same after
    [save_account] with any five values (a username "master" is stored
    encrypted and makes no sentinel), after [update_account] and
    [delete_account] on an id that no sentinel row has, and after another
    [set_master_password] once a sentinel is there: the first one stays
    the one that is read. *)
Theorem master_hash_out_of_reach (w : World) :
  (forall website notes email username password,
     fst (fetch_master_password
            (snd (save_account website notes email username password w)))
     = fst (fetch_master_password w))
  /\ (forall uid,
        (forall a, In a (accounts w) -> is_master a = true -> id a <> uid) ->
        (forall name new_value,
           fst (fetch_master_password (snd (update_account uid name new_value w)))
           = fst (fetch_master_password w))
        /\ fst (fetch_master_password (snd (delete_account uid w)))
           = fst (fetch_master_password w))
  /\ (forall hashed,
        List.find is_master (accounts w) <> None ->
        fst (fetch_master_password (snd (set_master_password hashed w)))
        = fst (fetch_master_password w)).
Proof.
  assert (forall w1 w2, List.find is_master (accounts w1) = List.find is_master (accounts w2) ->
            fst (fetch_master_password w1) = fst (fetch_master_password w2)) as Hfetch.
  { intros w1 w2 Heq. by rewrite !fetch_master_password_run, Heq. }
  split; [|split].
  - intros ws ns es us ps. apply Hfetch.
    destruct (save_account ws ns es us ps w) as [r w'] eqn:Hrun; simpl.
    apply save_account_table in Hrun
      as [->|(k & v1 & v2 & v3 & v4 & v5 & Hacc & _ & Hv4)]; [done|].
    simpl in *. rewrite Hacc. apply find_snoc_false.
    unfold is_master. simpl. by apply bool_decide_eq_false_2; intros [= ->].
  - intros uid Hother. split.
    + intros name v. apply Hfetch.
      destruct (update_account uid name v w) as [r w'] eqn:Hrun; simpl.
      apply update_account_table in Hrun as [->|(row & c & v' & _ & _ & Hacc & Hv')];
        [done|].
      simpl. rewrite Hacc.
      assert (forall rows, (forall a, In a rows -> is_master a = true -> id a <> uid) ->
                List.find is_master
                  (map (fun b => if bool_decide (id b = uid) then set_column c v' b else b) rows)
                = List.find is_master rows) as Hmap.
      { induction rows as [|b rows IH]; intros Hrows; simpl; [done|].
        rewrite IH by (intros a Ha; apply Hrows; by right).
        case_bool_decide as Hb; [|done].
        assert (is_master b = false) as Hmb.
        { destruct (is_master b) eqn:Hm; [|done].
          exfalso. by apply (Hrows b (or_introl eq_refl) Hm). }
        rewrite Hmb.
        assert (is_master (set_column c v' b) = false) as ->; [|done].
        unfold is_master in *. destruct c; simpl; try done.
        apply bool_decide_eq_false_2. by intros ->. }
      by apply Hmap.
    + apply Hfetch.
      destruct (delete_account uid w) as [r w'] eqn:Hrun; simpl.
      apply delete_account_table in Hrun as [->|(row & _ & Hacc)]; [done|].
      simpl. rewrite Hacc. clear Hacc.
      induction (accounts w) as [|b rows IH]; simpl; [done|].
      assert (forall a, In a rows -> is_master a = true -> id a <> uid) as Hrows
        by (intros a Ha; apply Hother; by right).
      case_bool_decide as Hb; simpl.
      * destruct (is_master b) eqn:Hm; [|by apply IH].
        exfalso. by apply (Hother b (or_introl eq_refl) Hm).
      * destruct (is_master b); [done | by apply IH].
  - intros hashed Hsome. apply Hfetch.
    unfold set_master_password, session_commit, set_accounts.
    destruct (insert_allowed _ _); simpl; [|done].
    generalize (mkAccount (next_rowid (accounts w)) PNone PNone PNone PNone
                  (PStr (lit "master")) (PStr hashed)).
    intros row. induction (accounts w) as [|b rows IH]; simpl in *; [done|].
    destruct (is_master b); [done | by apply IH].
Qed.

End Invariants.


Lemma master_hash_out_of_reach_witness :
  let w := Scenario.saved Scenario.with_master in
  fst (fetch_master_password (snd (delete_account (L := Sample.lib) 2 w)))
  = fst (fetch_master_password w)
  /\ fst (fetch_master_password (snd (set_master_password (lit "other") w)))
     = fst (fetch_master_password w).
Proof.
  intros w.
  destruct (master_hash_out_of_reach (L := Sample.lib) w) as (_ & Hrows & Hset).
  split.
  - apply (Hrows 2%Z). intros a Ha Hm.
    assert (id a = 1%Z \/ is_master a = false) as [->|Hno];
      [|done|by rewrite Hm in Hno].
    revert Ha. vm_compute. intros [<-|[<-|[]]]; [by left | by right].
  - apply Hset. vm_compute. discriminate.
Defined.

(** ** database/database.py: one call after the other *)

Section Composition.
Context {L : PyLib} {laws : PyLibLaws L}.

(** X11.  [save_account] and then [delete_account] on the id of the new
    row: when the name of the key is free and its file can be removed,
    both calls return, the table is the one before the save, the key
    file is gone and can no longer be read. *)
Theorem save_then_delete_restores
    (website notes email username password : pystr) (w : World) :
  let key := next_bytes 32 w in
  let key_id := take 15 (sha256_hexdigest key) in
  let path := os_path_join KEYS_DIRECTORY (key_id ++ KEY_FILE_EXTENSION) in
  Forall (fun a => key_file a <> PStr key_id) (accounts w) ->
  undeletable w path = false ->
  exists w1 w2,
    save_account (PStr website) (PStr notes) (PStr email) (PStr username)
      (PStr password) w = (Ok tt, w1)
    /\ delete_account (next_rowid (accounts w)) w1 = (Ok tt, w2)
    /\ accounts w2 = accounts w
    /\ files w2 = delete path (files w)
    /\ fst (read_key_from_file (PStr key_id) w2) = Raise FileNotFoundError.
Proof.
  intros key key_id path Hfresh Hremovable.
  destruct (save_account_run website notes email username password w Hfresh)
    as (v1 & v2 & v3 & v4 & v5 & n & Hsave).
  fold key key_id path in Hsave.
  set (row := mkAccount (next_rowid (accounts w)) (PStr key_id) v1 v2 v3 v4 v5) in *.
  set (w1 := mkWorld _ _ _ _ _ _) in Hsave.
  assert (List.find (fun a => bool_decide (id a = next_rowid (accounts w)))
            (accounts w ++ [row]) = Some row) as Hfind.
  { rewrite find_snoc_none; [simpl; by rewrite bool_decide_eq_true_2|].
    destruct (List.find _ (accounts w)) as [a|] eqn:Hf; [|done].
    destruct (find_by_id_some _ _ _ Hf) as [Hid Hin].
    pose proof (next_rowid_above (accounts w)) as Habove.
    rewrite List.Forall_forall in Habove. specialize (Habove a Hin). lia. }
  destruct (delete_key_file_run key_id w1) as (b & w' & Hdel & Hacc & Hund & _ & Hgone).
  fold path in Hgone.
  specialize (Hgone (or_intror Hremovable)).
  exists w1. eexists. split; [exact Hsave|]. split.
  { unfold delete_account, query_first, mbind at 1, prog_bind at 1.
    unfold w1 at 1. cbn [accounts]. rewrite Hfind.
    change (key_file row) with (PStr key_id).
    unfold mbind, prog_bind. rewrite Hdel.
    unfold session_commit, set_accounts. reflexivity. }
  simpl. rewrite Hacc, Hgone. simpl.
  assert (List.filter (fun b => negb (bool_decide (id b = next_rowid (accounts w))))
            (accounts w ++ [row]) = accounts w) as ->.
  { rewrite List.filter_app. simpl. rewrite bool_decide_eq_true_2 by done. simpl.
    rewrite app_nil_r.
    assert (forall (m : Z) (rows : list Account),
              Forall (fun a => id a < m) rows ->
              List.filter (fun b => negb (bool_decide (id b = m))) rows = rows)
      as Hkeep.
    { intros m rows Habove.
      induction Habove as [|a rows' Ha _ IH]; simpl; [done|].
      rewrite bool_decide_eq_false_2 by lia. simpl. by rewrite IH. }
    apply Hkeep, next_rowid_above. }
  split; [done|]. rewrite delete_insert_eq. split; [done|].
  unfold read_key_from_file, mbind, prog_bind, read_file. simpl. fold path.
  by rewrite lookup_delete_eq.
Qed.

End Composition.

Lemma save_then_delete_restores_witness :
  exists w1 w2,
    save_account (L := Sample.lib) (PStr (lit "site.com")) (PStr (lit "n"))
      (PStr (lit "e@x.com")) (PStr (lit "user")) (PStr (lit "pass123"))
      Scenario.with_master = (Ok tt, w1)
    /\ delete_account (L := Sample.lib) 2 w1 = (Ok tt, w2)
    /\ accounts w2 = accounts Scenario.with_master.
Proof.
  destruct (save_then_delete_restores (L := Sample.lib) (lit "site.com") (lit "n")
              (lit "e@x.com") (lit "user") (lit "pass123") Scenario.with_master)
    as (w1 & w2 & Hsave & Hdel & Hacc & _).
  - vm_compute. repeat constructor; discriminate.
  - reflexivity.
  - exists w1, w2. split; [exact Hsave|]. split; [exact Hdel | exact Hacc].
Defined.
